(** * convert_ncbi_refseq_genbank_chromosomes.py

    A shallow embedding of the accession remapper
    [programs/convert_ncbi_refseq_genbank_chromosomes.py] and the proofs of
    the properties its specification states.

    Layout: Python primitives the script relies on ([Py]), the values and
    the dictionary ([Dict]), the data frame and the conversion-table reader
    ([Pandas]), the argument parser ([Argparse]), the script itself
    ([Script]) and then the theorems. *)

From Stdlib Require Import String Ascii List Bool Arith Lia.
Import ListNotations.
Open Scope string_scope.
Open Scope list_scope.

(** ** Python primitives *)

Module Py.

Definition TAB : ascii := "009"%char.
Definition LF : ascii := "010"%char.
Definition CR : ascii := "013"%char.
Definition HASH : ascii := "#"%char.
Definition SPACE : ascii := " "%char.
Definition DQUOTE : ascii := "034"%char.

Definition tab : string := String TAB "".
Definition nl : string := String LF "".

(** [s.startswith(p)] *)
Fixpoint startswith (s p : string) : bool :=
  match p with
  | EmptyString => true
  | String a p' =>
      match s with
      | EmptyString => false
      | String b s' => Ascii.eqb a b && startswith s' p'
      end
  end.

(** [s.split(sep)] for a one-character separator: never empty, the empty
    string splits into one empty field. *)
Fixpoint split (sep : ascii) (s : string) : list string :=
  match s with
  | EmptyString => [EmptyString]
  | String c rest =>
      if Ascii.eqb c sep then EmptyString :: split sep rest
      else match split sep rest with
           | f :: fs => String c f :: fs
           | [] => [String c EmptyString]
           end
  end.

(** [sep.join(l)] on a list of [str]. *)
Definition join (sep : string) (l : list string) : string := String.concat sep l.

(** [c in s] for a character. *)
Fixpoint has_char (c : ascii) (s : string) : bool :=
  match s with
  | EmptyString => false
  | String d rest => Ascii.eqb d c || has_char c rest
  end.

(** Text-mode reading with the default [newline=None]: a CR LF pair and a
    lone CR both reach the program as LF. *)
Fixpoint universal_newlines (s : string) : string :=
  match s with
  | EmptyString => EmptyString
  | String c rest =>
      if Ascii.eqb c CR then
        match rest with
        | String d _ => if Ascii.eqb d LF then universal_newlines rest
                        else String LF (universal_newlines rest)
        | EmptyString => String LF EmptyString
        end
      else String c (universal_newlines rest)
  end.

(** Iterating a text file: the lines with their terminating LF kept; only
    the last line can lack one. *)
Fixpoint keepends (s : string) : list string :=
  match s with
  | EmptyString => []
  | String c rest =>
      if Ascii.eqb c LF then nl :: keepends rest
      else match keepends rest with
           | l :: ls => String c l :: ls
           | [] => [String c EmptyString]
           end
  end.

Definition file_lines (content : string) : list string :=
  keepends (universal_newlines content).

(** [bool(s)] on a [str]: only the empty string is falsy. *)
Definition bool_of_str (s : string) : bool :=
  match s with
  | EmptyString => false
  | String _ _ => true
  end.

End Py.

(** ** Exceptions and results *)

Inductive exn : Type :=
| NameError (name : string)
| AttributeError
| SystemExit (code : nat)
| OSError (path : string)
| EmptyDataError
| ParserError
| ValueError
| KeyError (name : string)
| TypeError.

Inductive outcome (A : Type) : Type :=
| Ok (a : A)
| Raise (e : exn).
Arguments Ok {A} a.
Arguments Raise {A} e.

Definition bind {A B : Type} (x : outcome A) (k : A -> outcome B) : outcome B :=
  match x with
  | Ok a => k a
  | Raise e => Raise e
  end.

Notation "x <- c ;; k" := (bind c (fun x => k))
  (at level 61, c at next level, right associativity).

(** ** Values and the dictionary *)

Module Dict.

(** The objects read_csv puts in a column of text: a [str], or the float
    [nan] that stands for a missing cell. *)
Inductive cell : Type :=
| Str (s : string)
| NaN.

(** Equality of keys. In a column of text the missing cells are all the
    one object [nan] that read_csv stores, which a dict finds again by
    identity; a column of numbers, where each [nan] read from the column is
    an object of its own, is not a column of this model. *)
Definition cell_eqb (a b : cell) : bool :=
  match a, b with
  | Str s, Str t => String.eqb s t
  | NaN, NaN => true
  | _, _ => false
  end.

(** A [dict] in insertion order. *)
Definition dict : Type := list (cell * cell).

Fixpoint get (d : dict) (k : cell) : option cell :=
  match d with
  | [] => None
  | (k', v) :: rest => if cell_eqb k' k then Some v else get rest k
  end.

(** [k in d] *)
Definition contains (d : dict) (k : cell) : bool :=
  match get d k with
  | Some _ => true
  | None => false
  end.

(** [d[k] = v]: an existing key keeps its place and takes the new value, a
    new key goes to the end. *)
Fixpoint set (d : dict) (k v : cell) : dict :=
  match d with
  | [] => [(k, v)]
  | (k', v') :: rest =>
      if cell_eqb k' k then (k', v) :: rest else (k', v') :: set rest k v
  end.

(** [dict(pairs)]: the pairs are stored from first to last. *)
Definition store (d : dict) (kv : cell * cell) : dict := set d (fst kv) (snd kv).

Definition of_pairs (pairs : list (cell * cell)) : dict :=
  fold_left store pairs [].

Definition keys (d : dict) : list cell := map fst d.
Definition values (d : dict) : list cell := map snd d.

End Dict.

(** ** The data frame and the conversion-table reader *)

Module Pandas.
Import Py Dict.

Record DataFrame : Type := mkDataFrame {
  columns : list string;
  rows : list (list cell)
}.

Fixpoint index_of (name : string) (names : list string) : option nat :=
  match names with
  | [] => None
  | n :: rest =>
      if String.eqb n name then Some 0
      else match index_of name rest with
           | Some i => Some (S i)
           | None => None
           end
  end.

(** [df.columns = names]: the frame keeps its data and takes the new labels;
    a label list of another length is refused. *)
Definition set_columns (df : DataFrame) (names : list string) : outcome DataFrame :=
  if Nat.eqb (List.length names) (List.length (columns df))
  then Ok (mkDataFrame names (rows df))
  else Raise ValueError.

(** [df[name]]: the cells of one column, top to bottom. *)
Definition getitem (df : DataFrame) (name : string) : outcome (list cell) :=
  match index_of name (columns df) with
  | Some i => Ok (map (fun r => nth i r NaN) (rows df))
  | None => Raise (KeyError name)
  end.

(** The strings read_csv turns into [nan] by default. *)
Definition na_values : list string :=
  [""; "#N/A"; "#N/A N/A"; "#NA"; "-1.#IND"; "-1.#QNAN"; "-NaN"; "-nan";
   "1.#IND"; "1.#QNAN"; "<NA>"; "N/A"; "NA"; "NULL"; "NaN"; "None"; "n/a";
   "nan"; "null"].

Definition is_na (s : string) : bool := existsb (String.eqb s) na_values.

Definition to_cell (s : string) : cell := if is_na s then NaN else Str s.

(** The part of a line before the comment character. *)
Fixpoint uncomment (s : string) : string :=
  match s with
  | EmptyString => EmptyString
  | String c rest => if Ascii.eqb c HASH then EmptyString else String c (uncomment rest)
  end.

(** A line of nothing but spaces (the tab is the separator, not blank). *)
Fixpoint blank (s : string) : bool :=
  match s with
  | EmptyString => true
  | String c rest => Ascii.eqb c SPACE && blank rest
  end.

(** A line without its terminator. *)
Fixpoint chomp (s : string) : string :=
  match s with
  | EmptyString => EmptyString
  | String c rest => if Ascii.eqb c LF then EmptyString else String c (chomp rest)
  end.

(** The records of the table: CR, LF and CR LF end a line, a line that
    starts with the comment character or is blank is skipped, every other
    line is cut at the comment character and split on the tab. *)
Definition record_of (line : string) : option (list string) :=
  if startswith line "#" || blank line then None
  else Some (split TAB (uncomment line)).

Fixpoint records (lines : list string) : list (list string) :=
  match lines with
  | [] => []
  | l :: rest =>
      match record_of (chomp l) with
      | Some r => r :: records rest
      | None => records rest
      end
  end.

Definition tokenize (text : string) : list (list string) :=
  records (file_lines text).

(** A field of the table holds neither a tab nor a line feed. *)
Definition clean (s : string) : Prop :=
  has_char TAB s = false /\ has_char LF s = false.

(** A short record is filled up with [nan]. *)
Definition pad (n : nat) (r : list cell) : list cell :=
  r ++ repeat NaN (n - List.length r).

(** Modelled from the spec: [pd.read_csv(path, sep='\t', comment='#')] is a
    call into the pandas library, whose code is not part of the repository.
    The model follows the spec (tab-separated values, lines beginning with
    the comment character excluded, the file's own header row discarded by
    the relabelling that follows) and pandas' documented defaults: the
    first record gives the column labels and the number of columns, the
    other records are the data, missing trailing cells and the default NA
    strings become [nan], a record longer than the header is a ParserError
    and a table without any record an EmptyDataError.

    Outside the model, answered by [None]: a table with a double quote
    (pandas' quoting rules) and a first data record longer than the header
    (pandas then takes the leading cells as row labels). Column type
    inference is not modelled: the cells stay text, as accessions are. *)
Definition read_csv (text : string) : option (outcome DataFrame) :=
  if has_char DQUOTE text then None
  else match tokenize text with
       | [] => Some (Raise EmptyDataError)
       | hdr :: data =>
           let n := List.length hdr in
           match data with
           | first :: _ =>
               if Nat.ltb n (List.length first) then None
               else if existsb (fun r => Nat.ltb n (List.length r)) data
                    then Some (Raise ParserError)
                    else Some (Ok (mkDataFrame hdr (map (fun r => pad n (map to_cell r)) data)))
           | [] => Some (Ok (mkDataFrame hdr []))
           end
       end.






End Pandas.

(** ** The argument parser *)

Module Argparse.
Import Py.

Record Namespace : Type := mkNamespace {
  input_gff3 : string;
  conversion_table : string;
  output_gff3 : string;
  refseq_to_genbank : bool
}.

Definition option_name : string := "--refseq-to-genbank".

(** The text after the first [=] of a command-line word. *)
Fixpoint after_equals (s : string) : option string :=
  match s with
  | EmptyString => None
  | String c rest => if Ascii.eqb c "="%char then Some rest else after_equals rest
  end.

(** A word that argparse reads as an option rather than as an argument. *)
Definition dashed (s : string) : bool :=
  startswith s "-" && negb (String.eqb s "-").

(** One pass over the command line. [pos] collects the positional words,
    [flag] is the value of the option so far: [default=True], and
    [type=bool] applies [bool] to the word given with the option. *)
Fixpoint scan (argv : list string) (pos : list string) (flag : bool)
  : option (outcome (list string * bool)) :=
  match argv with
  | [] => Some (Ok (pos, flag))
  | word :: rest =>
      if String.eqb word option_name then
        match rest with
        | value :: rest' =>
            if dashed value then None
            else scan rest' pos (bool_of_str value)
        | [] => Some (Raise (SystemExit 2))
        end
      else if startswith word (option_name ++ "=") then
        match after_equals word with
        | Some value => scan rest pos (bool_of_str value)
        | None => None
        end
      else if String.eqb word "-h" || String.eqb word "--help" then
        Some (Raise (SystemExit 0))
      else if dashed word then None
      else scan rest (pos ++ [word]) flag
  end.

(** [parse_args()], on the words after the program name: three positional
    arguments and the option. [None] is a command line outside the model
    (abbreviated options, other words that start with a dash). *)
Definition parse_args (argv : list string) : option (outcome Namespace) :=
  match scan argv [] true with
  | None => None
  | Some (Raise e) => Some (Raise e)
  | Some (Ok ([i; t; o], flag)) => Some (Ok (mkNamespace i t o flag))
  | Some (Ok _) => Some (Raise (SystemExit 2))
  end.

End Argparse.

(** ** The script *)

Module Script.
Import Py Dict Pandas Argparse.

Definition header : list string :=
  ["Sequence-Name"; "Sequence-Role"; "Assigned-Molecule";
   "Assigned-Molecule-Location/Type"; "GenBank-Accn"; "Relationship";
   "RefSeq-Accn"; "Assembly-Unit"; "Sequence-Length"; "UCSC-style-name"].

(** [df.columns = header] and the dictionary of the chosen direction. *)
Definition build_mapping (refseq_to_genbank : bool) (df : DataFrame) : outcome dict :=
  df <- set_columns df header ;;
  if refseq_to_genbank then
    ks <- getitem df "RefSeq-Accn" ;;
    vs <- getitem df "GenBank-Accn" ;;
    Ok (of_pairs (combine ks vs))
  else
    ks <- getitem df "GenBank-Accn" ;;
    vs <- getitem df "RefSeq-Accn" ;;
    Ok (of_pairs (combine ks vs)).

(** The first three statements of the block on the text of the table:
    read it, relabel the columns, build the dictionary. *)
Definition load_mapping (refseq_to_genbank : bool) (text : string)
  : option (outcome dict) :=
  match read_csv text with
  | None => None
  | Some parsed => Some (df <- parsed ;; build_mapping refseq_to_genbank df)
  end.

(** Positions of the key and of the value column among the ten labels. *)
Definition key_column (refseq_to_genbank : bool) : nat :=
  if refseq_to_genbank then 6 else 4.

Definition value_column (refseq_to_genbank : bool) : nat :=
  if refseq_to_genbank then 4 else 6.

(** What the run has done so far: the strings written to the output file
    and the rows printed after ['Row unparseable: ']. *)
Record state : Type := mkState {
  written : list string;
  printed : list (list string)
}.

Definition init : state := mkState [] [].

Definition write (st : state) (s : string) : state :=
  mkState (written st ++ [s]) (printed st).

Definition print (st : state) (row : list string) : state :=
  mkState (written st) (printed st ++ [row]).

(** [row[0] = v] on a split row (which is never empty). *)
Definition setitem0 (row : list cell) (v : cell) : list cell :=
  match row with
  | [] => []
  | _ :: rest => v :: rest
  end.

(** [sep.join(row)]: every item has to be a [str]. *)
Fixpoint strs (row : list cell) : outcome (list string) :=
  match row with
  | [] => Ok []
  | Str s :: rest => l <- strs rest ;; Ok (s :: l)
  | NaN :: _ => Raise TypeError
  end.

Definition join_cells (sep : string) (row : list cell) : outcome string :=
  l <- strs row ;; Ok (join sep l).

(** The statements after the if/elif of the loop body: split, look up
    field 0, replace it or print the row, write the joined row. *)
Definition substitute (m : dict) (st : state) (row : string) : state * option exn :=
  let fields := split TAB row in
  let row' := map Str fields in
  let key := hd NaN row' in
  let '(row'', st') :=
    match get m key with
    | Some v => (setitem0 row' v, st)
    | None => (row', print st fields)
    end in
  match join_cells tab row'' with
  | Ok s => (write st' s, None)
  | Raise e => (st', Some e)
  end.

(** Field 0 of a row, the word the dictionary is asked for. *)
Definition field0 (row : string) : string := hd "" (split TAB row).

(** One turn of the loop. The [##gff] branch writes the row and has no
    [continue]: control goes on to the statements after the if/elif. *)
Definition iteration (m : dict) (st : state) (row : string) : state * option exn :=
  if startswith row "##gff" then substitute m (write st row) row
  else if startswith row "#" then (st, None)
  else substitute m st row.

Fixpoint loop (m : dict) (st : state) (rows : list string) : state * option exn :=
  match rows with
  | [] => (st, None)
  | row :: rest =>
      match iteration m st row with
      | (st', None) => loop m st' rest
      | (st', Some e) => (st', Some e)
      end
  end.

(** What a run adds to what was done before it. *)
Definition after (st done : state) : state :=
  mkState (written st ++ written done) (printed st ++ printed done).

(** The files the run can see: the content of a path that opens for
    reading, and whether a path opens for writing. *)
Record world : Type := mkWorld {
  read_file : string -> option string;
  writable : string -> bool
}.

Inductive message : Type :=
| RowUnparseable (row : list string)
| Traceback (e : exn).

(** What a run leaves behind: the exit status, the content of the output
    file when the run opened it, and the two standard streams. *)
Record result : Type := mkResult {
  status : nat;
  output : option string;
  stdout : list message;
  stderr : list message
}.

(** An exception nobody catches: the traceback goes to standard error and
    the status is 1; [SystemExit] carries its own status. *)
Definition exit_status (e : exn) : nat :=
  match e with
  | SystemExit n => n
  | _ => 1
  end.

Definition uncaught (e : exn) (out : option string) (st : state) : result :=
  mkResult (exit_status e) out (map RowUnparseable (printed st)) [Traceback e].

(** The input as the loop sees it: [open(output, 'w')] has already emptied
    the output path, which matters when both names are one path. *)
Definition open_input (w : world) (args : Namespace) : option string :=
  if String.eqb (input_gff3 args) (output_gff3 args) then Some ""
  else read_file w (input_gff3 args).

(** The body of [if __name__ == "__main__":] for a given [args]. [None]
    when the conversion table is outside the model of [read_csv]. *)
Definition main_block (args : Namespace) (w : world) : option result :=
  match read_file w (conversion_table args) with
  | None => Some (uncaught (OSError (conversion_table args)) None init)
  | Some text =>
      match load_mapping (refseq_to_genbank args) text with
      | None => None
      | Some (Raise e) => Some (uncaught e None init)
      | Some (Ok m) =>
          if negb (writable w (output_gff3 args))
          then Some (uncaught (OSError (output_gff3 args)) None init)
          else
            match open_input w args with
            | None => Some (uncaught (OSError (input_gff3 args)) (Some "") init)
            | Some content =>
                match loop m init (file_lines content) with
                | (st, None) =>
                    Some (mkResult 0 (Some (String.concat "" (written st)))
                            (map RowUnparseable (printed st)) [])
                | (st, Some e) =>
                    Some (uncaught e (Some (String.concat "" (written st))) st)
                end
            end
      end
  end.

(** The names the module binds before the [__main__] block runs: the two
    imports, [header] and [parse_args]. *)
Inductive pyobj : Type :=
| PyModule (name : string)
| PyFunction (name : string)
| PyList (l : list string)
| PyNamespace (ns : Namespace).

Definition module_globals : list (string * pyobj) :=
  [("argparse", PyModule "argparse"); ("pd", PyModule "pandas");
   ("header", PyList header); ("parse_args", PyFunction "parse_args")].

Fixpoint load_global (name : string) (globals : list (string * pyobj)) : outcome pyobj :=
  match globals with
  | [] => Raise (NameError name)
  | (n, o) :: rest => if String.eqb n name then Ok o else load_global name rest
  end.

(** The script as it is run. Its first statement reads [args], a name that
    no statement of the module assigns ([parse_args] is defined and never
    called). *)
Definition script (w : world) : option result :=
  match load_global "args" module_globals with
  | Raise e => Some (uncaught e None init)
  | Ok (PyNamespace args) => main_block args w
  | Ok _ => Some (uncaught AttributeError None init)
  end.

End Script.

(** ** The text of a report *)

Module Repr.
Import Py.

Definition SQUOTE : ascii := "039"%char.
Definition BACKSLASH : ascii := "092"%char.

Definition hexdigits : list ascii :=
  ["0"; "1"; "2"; "3"; "4"; "5"; "6"; "7"; "8"; "9";
   "a"; "b"; "c"; "d"; "e"; "f"]%char.

Definition hexdigit (n : nat) : ascii := nth n hexdigits "0"%char.

(** One character inside [repr(s)]: the quote in use and the backslash get
    a backslash, tab, line feed and carriage return their letter, the other
    control characters their two hexadecimal digits, the rest is copied
    (characters above 127 as those of printable text). *)
Definition escape (quote c : ascii) : string :=
  if Ascii.eqb c quote || Ascii.eqb c BACKSLASH then String BACKSLASH (String c "")
  else if Ascii.eqb c TAB then String BACKSLASH "t"
  else if Ascii.eqb c LF then String BACKSLASH "n"
  else if Ascii.eqb c CR then String BACKSLASH "r"
  else if Nat.ltb (nat_of_ascii c) 32 || Nat.eqb (nat_of_ascii c) 127 then
    String BACKSLASH
      (String "x" (String (hexdigit (nat_of_ascii c / 16))
                     (String (hexdigit (nat_of_ascii c mod 16)) "")))
  else String c "".

Fixpoint escape_all (quote : ascii) (s : string) : string :=
  match s with
  | EmptyString => EmptyString
  | String c rest => (escape quote c ++ escape_all quote rest)%string
  end.

(** [repr(s)]: single quotes, or double quotes when the string holds a
    single quote and no double quote. *)
Definition quote_of (s : string) : ascii :=
  if has_char SQUOTE s && negb (has_char DQUOTE s) then DQUOTE else SQUOTE.

Definition repr_str (s : string) : string :=
  String (quote_of s) (escape_all (quote_of s) s ++ String (quote_of s) "")%string.

(** [repr(row)] of a list of [str]. *)
Definition repr_list (row : list string) : string :=
  ("[" ++ String.concat ", " (map repr_str row) ++ "]")%string.

(** ['Row unparseable: {}'.format(row)], the text [print] is given. *)
Definition report (row : list string) : string :=
  ("Row unparseable: " ++ repr_list row)%string.

End Repr.

(** ** Sample files *)

Module Samples.
Import Py Dict Pandas Argparse Script.

Definition line (fields : list string) : string := (join tab fields ++ nl)%string.

Definition chr1_record : list string :=
  ["1"; "assembled-molecule"; "1"; "Chromosome"; "CM000663.2"; "=";
   "NC_000001.11"; "Primary Assembly"; "248956422"; "chr1"].

Definition chr2_record : list string :=
  ["2"; "assembled-molecule"; "2"; "Chromosome"; "CM000664.2"; "=";
   "NC_000002.12"; "Primary Assembly"; "242193529"; "chr2"].

Definition chr2_again_record : list string :=
  ["2b"; "assembled-molecule"; "2"; "Chromosome"; "CM999999.9"; "=";
   "NC_000002.12"; "Primary Assembly"; "242193529"; "chr2"].

Definition chr3_no_genbank_record : list string :=
  ["3"; "assembled-molecule"; "3"; "Chromosome"; ""; "<>";
   "NC_000003.12"; "Primary Assembly"; "198295559"; "chr3"].

Definition chr1 : string := line chr1_record.
Definition chr2 : string := line chr2_record.
Definition chr2_again : string := line chr2_again_record.
Definition chr3_no_genbank : string := line chr3_no_genbank_record.

(** A table in the layout of an assembly report: the column names sit on a
    comment line, the first line that is not a comment is chromosome 1. *)
Definition table : string :=
  ("# Sequence-Name" ++ nl ++ chr1 ++ chr2 ++ chr2_again)%string.


(** A table with a row that has no GenBank accession. *)
Definition table_gap : string :=
  ("# Sequence-Name" ++ nl ++ chr1 ++ chr2 ++ chr3_no_genbank)%string.


(** The mapping the script builds from [table] in the default direction. *)
Definition mapping : dict := [(Str "NC_000002.12", Str "CM999999.9")].

(** A table of two columns. *)
Definition narrow_table : string :=
  (line ["GenBank-Accn"; "RefSeq-Accn"] ++ line ["CM000663.2"; "NC_000001.11"])%string.

Definition args_of (flag : bool) : Namespace :=
  mkNamespace "in.gff3" "table.tsv" "out.gff3" flag.

(** A directory with the table and one input file. *)
Definition files (tbl input : string) : world :=
  mkWorld (fun path => if String.eqb path "table.tsv" then Some tbl
                       else if String.eqb path "in.gff3" then Some input
                       else None)
          (fun path => String.eqb path "out.gff3").

Definition directive : string := ("##gff-version 3" ++ nl)%string.

Definition unknown_row : string := line ["NC_999999.1"; "."; "region"].

Definition chr3_row : string := line ["NC_000003.12"; "."; "region"].

End Samples.

(** ** The claims of the specification that the script does not meet as
    they are worded, as propositions *)

Module Claims.
Import Py Dict Pandas Argparse Script.


(** A row whose field 0 is not a key is reported on standard error. *)
Definition unmapped_row_reported_on_stderr : Prop :=
  forall (args : Namespace) (w : world) (r : result) (m : dict)
         (text content row : string),
    main_block args w = Some r ->
    read_file w (conversion_table args) = Some text ->
    load_mapping (refseq_to_genbank args) text = Some (Ok m) ->
    open_input w args = Some content ->
    In row (file_lines content) ->
    startswith row "#" = false ->
    get m (Str (field0 row)) = None ->
    In (RowUnparseable (split TAB row)) (stderr r).

(** A row without a tab is never remapped: it is written as it is and
    reported. *)
Definition tabless_row_never_remapped : Prop :=
  forall (flag : bool) (text : string) (m : dict) (st : state) (row : string),
    load_mapping flag text = Some (Ok m) ->
    has_char TAB row = false ->
    startswith row "#" = false ->
    iteration m st row =
      (mkState (written st ++ [row]) (printed st ++ [[row]]), None).


End Claims.

(** * Proofs *)

Arguments Ascii.eqb : simpl never.

(** ** The dictionary *)

Section DictFacts.
Import Dict.

Lemma cell_eqb_eq (a b : cell) : cell_eqb a b = true <-> a = b.
Proof.
  destruct a as [s|], b as [t|]; simpl; split; intro H;
    try discriminate; try reflexivity.
  - apply String.eqb_eq in H. now subst.
  - injection H as ->. apply String.eqb_refl.
Qed.






Lemma in_keys_set (d : dict) (k v x : cell) :
  In x (keys (set d k v)) <-> x = k \/ In x (keys d).
Proof.
  unfold keys. induction d as [|[k0 v0] rest IH]; simpl.
  - intuition.
  - destruct (cell_eqb k0 k) eqn:E; simpl.
    + apply cell_eqb_eq in E. subst k0. intuition.
    + rewrite IH. intuition.
Qed.

Lemma in_values_set (d : dict) (k v x : cell) :
  In x (values (set d k v)) -> x = v \/ In x (values d).
Proof.
  unfold values. induction d as [|[k0 v0] rest IH]; simpl.
  - intuition.
  - destruct (cell_eqb k0 k); simpl; intuition.
Qed.


Lemma of_pairs_fold (pairs : list (cell * cell)) :
  of_pairs pairs = fold_left store pairs [].
Proof. reflexivity. Qed.



Lemma in_keys_fold (pairs : list (cell * cell)) (d : dict) (x : cell) :
  In x (keys (fold_left store pairs d)) ->
  In x (keys d) \/ In x (map fst pairs).
Proof.
  revert d. induction pairs as [|kv rest IH]; simpl; intros d H.
  - now left.
  - apply IH in H. destruct H as [H|H]; [|now right; right].
    apply in_keys_set in H. destruct H as [->|H]; [right; now left|now left].
Qed.

Lemma in_values_fold (pairs : list (cell * cell)) (d : dict) (x : cell) :
  In x (values (fold_left store pairs d)) ->
  In x (values d) \/ In x (map snd pairs).
Proof.
  revert d. induction pairs as [|kv rest IH]; simpl; intros d H.
  - now left.
  - apply IH in H. destruct H as [H|H]; [|now right; right].
    apply in_values_set in H. destruct H as [->|H]; [right; now left|now left].
Qed.



Lemma in_keys_of_pairs (pairs : list (cell * cell)) (x : cell) :
  In x (keys (of_pairs pairs)) -> In x (map fst pairs).
Proof.
  rewrite of_pairs_fold. intro H. apply in_keys_fold in H.
  destruct H as [[]|H]. exact H.
Qed.

Lemma in_values_of_pairs (pairs : list (cell * cell)) (x : cell) :
  In x (values (of_pairs pairs)) -> In x (map snd pairs).
Proof.
  rewrite of_pairs_fold. intro H. apply in_values_fold in H.
  destruct H as [[]|H]. exact H.
Qed.

Lemma get_in_keys (d : dict) (k v : cell) :
  get d k = Some v -> In k (keys d) /\ In v (values d).
Proof.
  unfold keys, values. induction d as [|[k0 v0] rest IH]; simpl; intro H.
  - discriminate.
  - destruct (cell_eqb k0 k) eqn:E.
    + apply cell_eqb_eq in E. injection H as <-. subst. split; now left.
    + destruct (IH H). split; now right.
Qed.

End DictFacts.

(** ** Splitting and joining *)

Section SplitFacts.
Import Py.

Lemma split_not_nil (sep : ascii) (s : string) : split sep s <> [].
Proof.
  destruct s as [|c rest]; simpl; [discriminate|].
  destruct (Ascii.eqb c sep); [discriminate|].
  destruct (split sep rest); discriminate.
Qed.

Lemma split_cons (sep : ascii) (s : string) :
  exists f fs, split sep s = f :: fs.
Proof.
  destruct (split sep s) as [|f fs] eqn:E.
  - now apply split_not_nil in E.
  - eauto.
Qed.

Lemma concat_cons (sep f : string) (g : string) (gs : list string) :
  String.concat sep (f :: g :: gs) = (f ++ sep ++ String.concat sep (g :: gs))%string.
Proof. reflexivity. Qed.

(** Joining what was split gives the string back. *)
Lemma join_split (s : string) : join tab (split TAB s) = s.
Proof.
  unfold join. induction s as [|c rest IH]; simpl.
  - reflexivity.
  - destruct (split_cons TAB rest) as (f & fs & E). rewrite E in *.
    destruct (Ascii.eqb c TAB) eqn:Ec.
    + apply Ascii.eqb_eq in Ec. subst c.
      rewrite concat_cons, IH. reflexivity.
    + destruct fs as [|g gs].
      * simpl in *. now rewrite IH.
      * rewrite concat_cons. rewrite concat_cons in IH.
        rewrite <- IH. reflexivity.
Qed.

Lemma split_no_sep (sep : ascii) (s : string) :
  has_char sep s = false -> split sep s = [s].
Proof.
  induction s as [|c rest IH]; simpl; intro H.
  - reflexivity.
  - apply orb_false_iff in H. destruct H as [Hc Hr].
    rewrite Hc, (IH Hr). reflexivity.
Qed.

Lemma split_app_sep (sep : ascii) (f s : string) :
  has_char sep f = false ->
  split sep (f ++ String sep s) = f :: split sep s.
Proof.
  induction f as [|c rest IH]; simpl; intro H.
  - now rewrite Ascii.eqb_refl.
  - apply orb_false_iff in H. destruct H as [Hc Hr].
    rewrite Hc, (IH Hr). reflexivity.
Qed.

(** Splitting what was joined gives the fields back, when no field holds
    the separator. *)
Lemma split_join (f : string) (fs : list string) :
  Forall (fun x => has_char TAB x = false) (f :: fs) ->
  split TAB (join tab (f :: fs)) = f :: fs.
Proof.
  unfold join. revert f. induction fs as [|g gs IH]; intros f H.
  - simpl. inversion H; subst. now apply split_no_sep.
  - inversion H as [|? ? Hf Hrest]; subst.
    rewrite concat_cons.
    change (tab ++ String.concat tab (g :: gs))%string
      with (String TAB (String.concat tab (g :: gs))).
    rewrite split_app_sep by exact Hf.
    now rewrite IH.
Qed.

(** No field of a split holds the separator, and a character absent from
    the string is absent from its fields. *)
Lemma split_fields_no_sep (sep : ascii) (s : string) :
  Forall (fun x => has_char sep x = false) (split sep s).
Proof.
  induction s as [|c rest IH]; simpl.
  - constructor; [reflexivity|constructor].
  - destruct (Ascii.eqb c sep) eqn:Ec.
    + constructor; [reflexivity|exact IH].
    + destruct (split sep rest) as [|f fs].
      * constructor; [simpl; now rewrite Ec|constructor].
      * inversion IH; subst. constructor; [simpl; now rewrite Ec|assumption].
Qed.

Lemma split_fields_no_char (sep c : ascii) (s : string) :
  has_char c s = false ->
  Forall (fun x => has_char c x = false) (split sep s).
Proof.
  induction s as [|d rest IH]; simpl; intro H.
  - constructor; [reflexivity|constructor].
  - apply orb_false_iff in H. destruct H as [Hd Hr]. specialize (IH Hr).
    destruct (Ascii.eqb d sep).
    + constructor; [reflexivity|exact IH].
    + destruct (split sep rest) as [|f fs].
      * constructor; [simpl; now rewrite Hd|constructor].
      * inversion IH; subst. constructor; [simpl; now rewrite Hd, H1|assumption].
Qed.

Lemma has_char_app (c : ascii) (s t : string) :
  has_char c (s ++ t) = has_char c s || has_char c t.
Proof.
  induction s as [|d rest IH]; simpl.
  - reflexivity.
  - now rewrite IH, orb_assoc.
Qed.

End SplitFacts.

(** ** The table reader and the loader *)

Section LoaderFacts.
Import Py Dict Pandas Script.

(** A field the record does not have reads as [nan], like an empty one. *)
Lemma nth_pad (n i : nat) (r : list string) :
  nth i (pad n (map to_cell r)) NaN = to_cell (nth i r "").
Proof.
  unfold pad. destruct (Nat.lt_ge_cases i (List.length r)) as [Hlt|Hge].
  - rewrite app_nth1 by now rewrite length_map.
    change NaN with (to_cell ""). apply map_nth.
  - rewrite app_nth2 by now rewrite length_map.
    rewrite (nth_overflow r) by exact Hge.
    change (to_cell "") with NaN.
    destruct (Nat.lt_ge_cases (i - List.length (map to_cell r))
                (List.length (repeat NaN (n - List.length (map to_cell r)))))
      as [Hin|Hout].
    + apply (repeat_spec (n - List.length (map to_cell r))). now apply nth_In.
    + now apply nth_overflow.
Qed.

Lemma read_csv_ok (text : string) (df : DataFrame) :
  read_csv text = Some (Ok df) ->
  exists hdr data,
    tokenize text = hdr :: data /\
    columns df = hdr /\
    rows df = map (fun r => pad (List.length hdr) (map to_cell r)) data.
Proof.
  unfold read_csv. destruct (has_char DQUOTE text); [discriminate|].
  destruct (tokenize text) as [|hdr data]; [discriminate|].
  destruct data as [|first more].
  - intro H. injection H as <-. exists hdr, []. auto.
  - destruct (Nat.ltb (List.length hdr) (List.length first)); [discriminate|].
    destruct (existsb _ _); [discriminate|].
    intro H. injection H as <-. exists hdr, (first :: more). auto.
Qed.

Lemma combine_map {A B C : Type} (f : A -> B) (g : A -> C) (l : list A) :
  combine (map f l) (map g l) = map (fun x => (f x, g x)) l.
Proof. induction l as [|x l IH]; simpl; [reflexivity|now rewrite IH]. Qed.

(** The dictionary pairs, row by row, the cell of the key column with the
    cell of the value column; the relabelling needs ten columns. *)
Lemma build_mapping_ok (flag : bool) (df : DataFrame) (m : dict) :
  build_mapping flag df = Ok m ->
  List.length (columns df) = 10 /\
  m = of_pairs (map (fun r => (nth (key_column flag) r NaN,
                               nth (value_column flag) r NaN)) (rows df)).
Proof.
  unfold build_mapping, set_columns.
  destruct (Nat.eqb (List.length header) (List.length (columns df))) eqn:E;
    [|discriminate].
  apply Nat.eqb_eq in E. simpl in E. intro H. split; [now symmetry|].
  destruct flag; simpl in H; injection H as <-;
    now rewrite combine_map.
Qed.

Lemma build_mapping_complete (flag : bool) (df : DataFrame) :
  List.length (columns df) = 10 ->
  exists m, build_mapping flag df = Ok m.
Proof.
  intro L. unfold build_mapping, set_columns. rewrite L. simpl.
  destruct flag; simpl; eauto.
Qed.

Lemma load_mapping_ok (flag : bool) (text : string) (m : dict) :
  load_mapping flag text = Some (Ok m) ->
  exists hdr data,
    tokenize text = hdr :: data /\
    List.length hdr = 10 /\
    m = of_pairs (map (fun r => (to_cell (nth (key_column flag) r ""),
                                 to_cell (nth (value_column flag) r ""))) data).
Proof.
  unfold load_mapping. destruct (read_csv text) as [[df|e]|] eqn:R;
    try discriminate.
  simpl. intro H. injection H as H.
  apply read_csv_ok in R. destruct R as (hdr & data & T & C & Rw).
  apply build_mapping_ok in H. destruct H as [L ->].
  exists hdr, data. rewrite C in L. repeat split; try assumption.
  rewrite Rw, map_map. f_equal. apply map_ext. intro r.
  now rewrite !nth_pad.
Qed.

Lemma has_char_chomp (s : string) : has_char LF (chomp s) = false.
Proof.
  induction s as [|c rest IH]; simpl; [reflexivity|].
  destruct (Ascii.eqb c LF) eqn:E; simpl; [reflexivity|].
  now rewrite E.
Qed.

Lemma has_char_uncomment (c : ascii) (s : string) :
  has_char c s = false -> has_char c (uncomment s) = false.
Proof.
  induction s as [|d rest IH]; simpl; [reflexivity|]. intro H.
  apply orb_false_iff in H. destruct H as [Hd Hr].
  destruct (Ascii.eqb d HASH); simpl; [reflexivity|].
  now rewrite Hd, IH.
Qed.

Lemma records_clean (lines : list string) :
  Forall (Forall clean) (records lines).
Proof.
  induction lines as [|l rest IH]; simpl; [constructor|].
  unfold record_of. destruct (startswith (chomp l) "#" || blank (chomp l));
    [exact IH|].
  constructor; [|exact IH].
  pose proof (split_fields_no_sep TAB (uncomment (chomp l))) as Ht.
  pose proof (split_fields_no_char TAB LF (uncomment (chomp l))
                (has_char_uncomment LF _ (has_char_chomp l))) as Hl.
  rewrite Forall_forall in *. intros f Hf. split; auto.
Qed.


Lemma nth_clean (i : nat) (r : list string) :
  Forall clean r -> clean (nth i r "").
Proof.
  intro H. destruct (nth_in_or_default i r "") as [Hin| ->].
  - rewrite Forall_forall in H. now apply H.
  - split; reflexivity.
Qed.

Lemma to_cell_Str (s t : string) : to_cell s = Str t -> s = t.
Proof. unfold to_cell. destruct (is_na s); congruence. Qed.

(** Every [str] key and every [str] value of a loaded mapping is a field of
    a data record of the table. *)
Lemma loaded_key_from_data (flag : bool) (text : string) (m : dict) (k : cell) :
  load_mapping flag text = Some (Ok m) ->
  In k (keys m) ->
  exists hdr data r,
    tokenize text = hdr :: data /\ In r data /\
    k = to_cell (nth (key_column flag) r "").
Proof.
  intros L Hin. apply load_mapping_ok in L.
  destruct L as (hdr & data & T & _ & ->).
  apply in_keys_of_pairs in Hin. rewrite map_map in Hin. simpl in Hin.
  apply in_map_iff in Hin. destruct Hin as (r & <- & Hr).
  exists hdr, data, r. auto.
Qed.

Lemma loaded_value_from_data (flag : bool) (text : string) (m : dict) (v : cell) :
  load_mapping flag text = Some (Ok m) ->
  In v (values m) ->
  exists hdr data r,
    tokenize text = hdr :: data /\ In r data /\
    v = to_cell (nth (value_column flag) r "").
Proof.
  intros L Hin. apply load_mapping_ok in L.
  destruct L as (hdr & data & T & _ & ->).
  apply in_values_of_pairs in Hin. rewrite map_map in Hin. simpl in Hin.
  apply in_map_iff in Hin. destruct Hin as (r & <- & Hr).
  exists hdr, data, r. auto.
Qed.

Lemma data_record_clean (text : string) (hdr r : list string)
      (data : list (list string)) :
  tokenize text = hdr :: data -> In r data -> Forall clean r.
Proof.
  intros T Hr. pose proof (records_clean (file_lines text)) as H.
  unfold tokenize in T. rewrite T in H. inversion H as [|? ? _ Hd]; subst.
  rewrite Forall_forall in Hd. now apply Hd.
Qed.

Lemma loaded_key_clean (flag : bool) (text : string) (m : dict) (s : string) :
  load_mapping flag text = Some (Ok m) ->
  In (Str s) (keys m) -> clean s.
Proof.
  intros L Hin.
  destruct (loaded_key_from_data _ _ _ _ L Hin) as (hdr & data & r & T & Hr & E).
  symmetry in E. apply to_cell_Str in E. subst s.
  apply nth_clean. eapply data_record_clean; eauto.
Qed.

Lemma loaded_value_clean (flag : bool) (text : string) (m : dict) (s : string) :
  load_mapping flag text = Some (Ok m) ->
  In (Str s) (values m) -> clean s.
Proof.
  intros L Hin.
  destruct (loaded_value_from_data _ _ _ _ L Hin) as (hdr & data & r & T & Hr & E).
  symmetry in E. apply to_cell_Str in E. subst s.
  apply nth_clean. eapply data_record_clean; eauto.
Qed.

End LoaderFacts.

(** ** The loop *)

Section LoopFacts.
Import Py Dict Pandas Argparse Script.

Lemma strs_map_Str (l : list string) : strs (map Str l) = Ok l.
Proof. induction l as [|s l IH]; simpl; [reflexivity|now rewrite IH]. Qed.

Lemma row_shape (row : string) :
  split TAB row = field0 row :: tl (split TAB row).
Proof.
  unfold field0. destruct (split_cons TAB row) as (f & fs & E).
  now rewrite E.
Qed.

Lemma substitute_unmapped (m : dict) (st : state) (row : string) :
  get m (Str (field0 row)) = None ->
  substitute m st row =
    (mkState (written st ++ [row]) (printed st ++ [split TAB row]), None).
Proof.
  intro G. pose proof (join_split row) as J.
  unfold substitute, field0 in *.
  destruct (split_cons TAB row) as (f & fs & E). rewrite E in *.
  cbn [map hd] in *. rewrite G.
  change (Str f :: map Str fs) with (map Str (f :: fs)).
  unfold join_cells. rewrite strs_map_Str. cbn [bind].
  now rewrite J.
Qed.

Lemma substitute_mapped (m : dict) (st : state) (row v : string) :
  get m (Str (field0 row)) = Some (Str v) ->
  substitute m st row =
    (write st (join tab (v :: tl (split TAB row))), None).
Proof.
  intro G. unfold substitute, field0 in *.
  destruct (split_cons TAB row) as (f & fs & E). rewrite E in *.
  cbn [map hd tl setitem0] in *. rewrite G.
  change (Str v :: map Str fs) with (map Str (v :: fs)).
  unfold join_cells. rewrite strs_map_Str. reflexivity.
Qed.

Lemma substitute_nan (m : dict) (st : state) (row : string) :
  get m (Str (field0 row)) = Some NaN ->
  substitute m st row = (st, Some TypeError).
Proof.
  intro G. unfold substitute, field0 in *.
  destruct (split_cons TAB row) as (f & fs & E). rewrite E in *.
  cbn [map hd setitem0] in *. now rewrite G.
Qed.

Lemma directive_is_comment (row : string) :
  startswith row "##gff" = true -> startswith row "#" = true.
Proof.
  destruct row as [|c rest]; simpl; [discriminate|].
  destruct (Ascii.eqb "#" c); [|discriminate].
  intros _. now destruct rest.
Qed.

Lemma iteration_data (m : dict) (st : state) (row : string) :
  startswith row "#" = false -> iteration m st row = substitute m st row.
Proof.
  intro H. unfold iteration. rewrite H.
  destruct (startswith row "##gff") eqn:G; [|reflexivity].
  apply directive_is_comment in G. congruence.
Qed.

Lemma loop_app (m : dict) (st : state) (l1 l2 : list string) :
  loop m st (l1 ++ l2) =
    match loop m st l1 with
    | (st', None) => loop m st' l2
    | (st', Some e) => (st', Some e)
    end.
Proof.
  revert st. induction l1 as [|row rest IH]; simpl; intro st.
  - reflexivity.
  - destruct (iteration m st row) as [st' [e|]]; [reflexivity|apply IH].
Qed.

Lemma get_None_or_key (m : dict) (k : cell) :
  get m k = None \/ In k (keys m).
Proof.
  destruct (get m k) as [v|] eqn:G; [right|now left].
  now apply get_in_keys in G.
Qed.



End LoopFacts.

(** ** The properties of the specification *)

Section Properties.
Import Py Dict Pandas Argparse Script Samples Claims.

(** C1. The script as written never reaches the pass over the input: its
    first statement reads the unbound name [args], so every run ends with a
    NameError traceback and status 1, whatever the files are. *)
Theorem script_raises_NameError (w : world) :
  script w = Some (mkResult 1 None [] [Traceback (NameError "args")]).
Proof. reflexivity. Qed.

(** With [args] supplied, a table of ten columns can still end the run with
    status 1: a row without a GenBank accession maps its key to [nan], and
    joining the row raises TypeError when that key comes up. *)
Example nan_value_TypeError :
  main_block (args_of true) (files table_gap (unknown_row ++ chr3_row)%string) =
    Some (mkResult 1 (Some unknown_row)
            [RowUnparseable ["NC_999999.1"; "."; ("region" ++ nl)%string]]
            [Traceback TypeError]).
Proof. vm_compute. reflexivity. Qed.


(** C2. A row that starts with [##gff] and whose field 0 is not a key is
    written twice, once by the branch and once by the statements after it,
    and is printed as unparseable in between. *)
Theorem directive_written_twice (m : dict) (st : state) (row : string) :
  startswith row "##gff" = true ->
  get m (Str (field0 row)) = None ->
  iteration m st row =
    (mkState (written st ++ [row; row]) (printed st ++ [split TAB row]), None).
Proof.
  intros D G. unfold iteration. rewrite D.
  rewrite substitute_unmapped by exact G.
  simpl. now rewrite <- app_assoc.
Qed.

Lemma directive_written_twice_witness :
  iteration [] init directive =
    (mkState [directive; directive] [[directive]], None).
Proof.
  exact (directive_written_twice [] init directive eq_refl eq_refl).
Defined.

(** C4. A word given with the option goes through [bool]: every word but
    the empty one, ["False"] included, leaves the direction at RefSeq to
    GenBank. *)
Theorem option_word_parses_true (word : string) :
  bool_of_str word = true ->
  dashed word = false ->
  parse_args ["in.gff3"; "table.tsv"; "out.gff3"; "--refseq-to-genbank"; word] =
    Some (Ok (args_of true)).
Proof.
  intros B D. unfold parse_args. cbn. rewrite D, B. reflexivity.
Qed.

Lemma option_word_parses_true_witness :
  parse_args ["in.gff3"; "table.tsv"; "out.gff3"; "--refseq-to-genbank"; "False"] =
    Some (Ok (args_of true)).
Proof.
  exact (option_word_parses_true "False" eq_refl eq_refl).
Defined.

(** The default, and the one word that selects the other direction. *)
Example option_default :
  parse_args ["in.gff3"; "table.tsv"; "out.gff3"] = Some (Ok (args_of true)).
Proof. reflexivity. Qed.

Example option_empty_word :
  parse_args ["in.gff3"; "table.tsv"; "out.gff3"; "--refseq-to-genbank"; ""] =
    Some (Ok (args_of false)).
Proof. reflexivity. Qed.

Example direction_after_False :
  load_mapping (refseq_to_genbank (args_of true)) table =
    Some (Ok mapping) /\
  load_mapping false table =
    Some (Ok [(Str "CM000664.2", Str "NC_000002.12");
              (Str "CM999999.9", Str "NC_000002.12")]).
Proof. split; vm_compute; reflexivity. Qed.

(** Row diagnostics are printed, and [print] writes to standard output:
    standard error only ever holds a traceback. *)
Lemma stderr_has_no_diagnostic (args : Namespace) (w : world) (r : result)
      (row : list string) :
  main_block args w = Some r -> ~ In (RowUnparseable row) (stderr r).
Proof.
  unfold main_block, uncaught. intros H Hin.
  repeat match type of H with
         | match ?x with _ => _ end = _ => destruct x
         | (if ?x then _ else _) = _ => destruct x
         | Some _ = Some _ => injection H as <-
         | None = Some _ => discriminate
         end;
    simpl in Hin; intuition discriminate.
Qed.

(** C5, counterexample. An unmapped row is reported on standard output;
    standard error stays empty. *)
Lemma unmapped_row_not_on_stderr : ~ unmapped_row_reported_on_stderr.
Proof.
  intro C.
  specialize (C (args_of true) (files table unknown_row)
                (mkResult 0 (Some unknown_row)
                   [RowUnparseable (split TAB unknown_row)] [])
                mapping
                table unknown_row unknown_row).
  simpl stderr in C. apply C; try (vm_compute; reflexivity).
  vm_compute. now left.
Qed.

(** C5, amended. For a row that does not start with [#]: when field 0 is
    not a key the run goes on, the row is printed (to standard output) and
    written as it came; when field 0 is a key with a [str] value the row is
    written with that value in place of field 0 and the other fields as
    they were; and no run reports a row on standard error. *)
Theorem unmapped_row_passes_through (m : dict) (st : state) (row : string)
        (rest : list string) :
  startswith row "#" = false ->
  (get m (Str (field0 row)) = None ->
   loop m st (row :: rest) =
     loop m (mkState (written st ++ [row]) (printed st ++ [split TAB row])) rest) /\
  (forall v, get m (Str (field0 row)) = Some (Str v) ->
   loop m st (row :: rest) =
     loop m (mkState (written st ++ [join tab (v :: tl (split TAB row))])
                     (printed st)) rest) /\
  (forall args w r fields,
     main_block args w = Some r -> ~ In (RowUnparseable fields) (stderr r)).
Proof.
  intro H. repeat split.
  - intro G. simpl. rewrite iteration_data by exact H.
    now rewrite substitute_unmapped.
  - intros v G. simpl. rewrite iteration_data by exact H.
    now rewrite (substitute_mapped _ _ _ v).
  - intros. eapply stderr_has_no_diagnostic; eauto.
Qed.

Lemma unmapped_row_passes_through_witness :
  startswith unknown_row "#" = false /\
  loop mapping init [unknown_row] =
    (mkState [unknown_row] [split TAB unknown_row], None).
Proof.
  split; [reflexivity|].
  exact (proj1 (unmapped_row_passes_through
                  mapping init unknown_row []
                  eq_refl) eq_refl).
Defined.

(** C6. A row that starts with [#] and not with [##gff] leaves no trace:
    the run over the file is the run over the file without that row. *)
Theorem comment_row_dropped (m : dict) (st : state) (before after : list string)
        (row : string) :
  startswith row "#" = true ->
  startswith row "##gff" = false ->
  loop m st (before ++ row :: after) = loop m st (before ++ after).
Proof.
  intros H D. rewrite !loop_app.
  destruct (loop m st before) as [st' [e|]]; [reflexivity|].
  simpl. unfold iteration. now rewrite D, H.
Qed.

Lemma comment_row_dropped_witness :
  loop [] init [unknown_row; ("#!genome-build GRCh38" ++ nl)%string; unknown_row] =
  loop [] init [unknown_row; unknown_row].
Proof.
  exact (comment_row_dropped [] init [unknown_row] [unknown_row]
           ("#!genome-build GRCh38" ++ nl)%string eq_refl eq_refl).
Defined.


Example header_record_lost :
  load_mapping true table = Some (Ok mapping) /\
  get mapping (Str "NC_000001.11") = None.
Proof. split; vm_compute; reflexivity. Qed.





(** C7. With a loaded mapping, a row that does not start with [#] and is
    written is written as one string that splits into as many fields as
    the row, the fields after field 0 being those of the row. *)
Theorem fields_preserved (flag : bool) (text : string) (m : dict)
        (st st' : state) (row : string) :
  load_mapping flag text = Some (Ok m) ->
  startswith row "#" = false ->
  iteration m st row = (st', None) ->
  exists out,
    written st' = written st ++ [out] /\
    List.length (split TAB out) = List.length (split TAB row) /\
    tl (split TAB out) = tl (split TAB row).
Proof.
  intros L H I. rewrite iteration_data in I by exact H.
  destruct (get m (Str (field0 row))) as [[v|]|] eqn:G.
  - rewrite (substitute_mapped _ _ _ v G) in I. injection I as <-.
    exists (join tab (v :: tl (split TAB row))).
    assert (F : Forall (fun x => has_char TAB x = false) (v :: tl (split TAB row))).
    { constructor.
      - apply get_in_keys in G. destruct G as [_ Hv].
        now destruct (loaded_value_clean _ _ _ _ L Hv).
      - pose proof (split_fields_no_sep TAB row) as S.
        rewrite row_shape in S. now inversion S. }
    rewrite (split_join _ _ F). repeat split.
    rewrite (row_shape row) at 2. reflexivity.
  - rewrite (substitute_nan _ _ _ G) in I. discriminate.
  - rewrite (substitute_unmapped _ _ _ G) in I. injection I as <-.
    exists row. auto.
Qed.

Lemma fields_preserved_witness :
  exists out,
    [line ["CM999999.9"; "."; "region"]] = [] ++ [out] /\
    List.length (split TAB out) =
      List.length (split TAB (line ["NC_000002.12"; "."; "region"])) /\
    tl (split TAB out) = tl (split TAB (line ["NC_000002.12"; "."; "region"])).
Proof.
  exact (fields_preserved true table mapping init
           (mkState [line ["CM999999.9"; "."; "region"]] [])
           (line ["NC_000002.12"; "."; "region"])
           eq_refl eq_refl eq_refl).
Defined.




(** C10, counterexample. A last line without a line feed has no newline
    in its key: ["NC_000002.12"] alone is remapped and not reported. *)
Lemma unterminated_row_remapped : ~ tabless_row_never_remapped.
Proof.
  intro C.
  specialize (C true table mapping init "NC_000002.12" eq_refl eq_refl eq_refl).
  vm_compute in C. discriminate.
Qed.

(** C10, amended. With a loaded mapping, a row without a tab that ends
    with its line feed and does not start with [#] is looked up whole, line
    feed included, is no key, and is written as it came and printed. *)
Theorem tabless_row_not_remapped (flag : bool) (text : string) (m : dict)
        (st : state) (body : string) :
  load_mapping flag text = Some (Ok m) ->
  has_char TAB body = false ->
  startswith (body ++ nl) "#" = false ->
  field0 (body ++ nl) = (body ++ nl)%string /\
  iteration m st (body ++ nl) =
    (mkState (written st ++ [(body ++ nl)%string])
             (printed st ++ [[(body ++ nl)%string]]), None).
Proof.
  intros L Ht H.
  assert (S : split TAB (body ++ nl) = [(body ++ nl)%string]).
  { apply split_no_sep. rewrite has_char_app, Ht. reflexivity. }
  assert (F : field0 (body ++ nl) = (body ++ nl)%string)
    by (unfold field0; now rewrite S).
  split; [exact F|].
  rewrite iteration_data by exact H.
  rewrite substitute_unmapped; [now rewrite S|].
  rewrite F. destruct (get_None_or_key m (Str (body ++ nl))) as [G|K]; [exact G|].
  destruct (loaded_key_clean _ _ _ _ L K) as [_ N].
  rewrite has_char_app in N. apply orb_false_iff in N.
  destruct N as [_ N]. discriminate.
Qed.

Lemma tabless_row_not_remapped_witness :
  field0 ("NC_000002.12" ++ nl) = ("NC_000002.12" ++ nl)%string /\
  iteration mapping init ("NC_000002.12" ++ nl) =
    (mkState [("NC_000002.12" ++ nl)%string] [[("NC_000002.12" ++ nl)%string]], None).
Proof.
  exact (tabless_row_not_remapped true table mapping init "NC_000002.12"
           eq_refl eq_refl eq_refl).
Defined.

End Properties.

(** ** Further properties of the script *)

Section MoreDictFacts.
Import Dict.




End MoreDictFacts.

Section MoreTextFacts.
Import Py.

Lemma append_empty (s : string) : (s ++ "")%string = s.
Proof. induction s as [|c s IH]; simpl; [reflexivity|now rewrite IH]. Qed.

Lemma concat_empty_cons (x : string) (l : list string) :
  String.concat "" (x :: l) = (x ++ String.concat "" l)%string.
Proof. destruct l; simpl; [now rewrite append_empty|reflexivity]. Qed.

(** The lines of a text, one after the other, are the text. *)
Lemma concat_keepends (s : string) : String.concat "" (keepends s) = s.
Proof.
  induction s as [|c rest IH]; [reflexivity|].
  cbn [keepends]. destruct (Ascii.eqb c LF) eqn:E.
  - apply Ascii.eqb_eq in E. subst c.
    rewrite concat_empty_cons, IH. reflexivity.
  - destruct (keepends rest) as [|l ls].
    + simpl in IH. now subst rest.
    + rewrite concat_empty_cons in *. simpl. now rewrite IH.
Qed.

End MoreTextFacts.

Section MoreLoopFacts.
Import Py Dict Pandas Argparse Script Samples.

Lemma after_init (st : state) : after st init = st.
Proof. destruct st. unfold after. simpl. now rewrite !app_nil_r. Qed.

Lemma after_assoc (a b c : state) : after (after a b) c = after a (after b c).
Proof. unfold after. simpl. now rewrite !app_assoc. Qed.

Lemma substitute_shift (m : dict) (st : state) (row : string) :
  substitute m st row =
    (after st (fst (substitute m init row)), snd (substitute m init row)).
Proof.
  unfold substitute, after. destruct st as [ws ps].
  destruct (get m (hd NaN (map Str (split TAB row)))) as [v|];
    destruct (join_cells tab _) as [s|e]; simpl;
    now rewrite ?app_nil_r.
Qed.

Lemma iteration_shift (m : dict) (st : state) (row : string) :
  iteration m st row =
    (after st (fst (iteration m init row)), snd (iteration m init row)).
Proof.
  unfold iteration. destruct (startswith row "##gff").
  - rewrite (substitute_shift m (write st row)),
            (substitute_shift m (write init row)).
    cbn [fst snd]. rewrite <- after_assoc. f_equal. f_equal.
    unfold after, write. simpl. now rewrite app_nil_r.
  - destruct (startswith row "#"); [simpl; now rewrite after_init|].
    apply substitute_shift.
Qed.

(** What the loop does to a row does not depend on the rows before it. *)
Lemma loop_shift (m : dict) (rows : list string) (st : state) :
  loop m st rows = (after st (fst (loop m init rows)), snd (loop m init rows)).
Proof.
  revert st. induction rows as [|row rest IH]; intro st.
  - simpl. now rewrite after_init.
  - cbn [loop]. rewrite (iteration_shift m st).
    destruct (iteration m init row) as [s1 [e|]]; simpl; [reflexivity|].
    rewrite IH, (IH s1). simpl. now rewrite after_assoc.
Qed.

(** The run over two inputs one after the other is the run over the first
    followed by the run over the second: the loop keeps nothing from one
    row to the next. *)
Theorem loop_concatenates (m : dict) (rows1 rows2 : list string)
        (done1 done2 : state) (e : option exn) :
  loop m init rows1 = (done1, None) ->
  loop m init rows2 = (done2, e) ->
  loop m init (rows1 ++ rows2) = (after done1 done2, e).
Proof.
  intros H1 H2. rewrite loop_app, H1, loop_shift, H2. reflexivity.
Qed.

Lemma loop_concatenates_witness :
  loop mapping init [unknown_row; line ["NC_000002.12"; "."; "gene"]] =
    (after (mkState [unknown_row] [split TAB unknown_row])
           (mkState [line ["CM999999.9"; "."; "gene"]] []), None).
Proof.
  exact (loop_concatenates mapping [unknown_row]
           [line ["NC_000002.12"; "."; "gene"]] _ _ None eq_refl eq_refl).
Defined.

(** A key whose value is [nan] ends the run with a TypeError at the first
    row that carries it: what the rows before it produced stays, that row
    and the rows after it are neither written nor reported. *)
Theorem nan_value_stops_run (m : dict) (st done : state)
        (before after_rows : list string) (row : string) :
  loop m st before = (done, None) ->
  startswith row "#" = false ->
  get m (Str (field0 row)) = Some NaN ->
  loop m st (before ++ row :: after_rows) = (done, Some TypeError).
Proof.
  intros B H G. rewrite loop_app, B. simpl.
  rewrite iteration_data by exact H.
  now rewrite substitute_nan.
Qed.

Lemma nan_value_stops_run_witness :
  loop [(Str "NC_000003.12", NaN)] init [unknown_row; chr3_row; unknown_row] =
    (mkState [unknown_row] [split TAB unknown_row], Some TypeError).
Proof.
  exact (nan_value_stops_run [(Str "NC_000003.12", NaN)] init _
           [unknown_row] [unknown_row] chr3_row eq_refl eq_refl eq_refl).
Defined.

Lemma loop_unmapped (m : dict) (rows : list string) (st : state) :
  (forall row, In row rows ->
     startswith row "#" = false /\ get m (Str (field0 row)) = None) ->
  loop m st rows =
    (mkState (written st ++ rows) (printed st ++ map (split TAB) rows), None).
Proof.
  revert st. induction rows as [|row rest IH]; intros st H.
  - simpl. rewrite !app_nil_r. now destruct st.
  - destruct (H row (or_introl eq_refl)) as [Hc Hg].
    cbn [loop]. rewrite iteration_data by exact Hc.
    rewrite substitute_unmapped by exact Hg.
    rewrite IH by (intros; apply H; now right).
    simpl. now rewrite <- !app_assoc.
Qed.

(** When no row of the input starts with [#] and no field 0 is a key, the
    output file is the input (line ends normalised), every row is reported
    once, in order, and the status is 0. *)
Theorem unmapped_input_copied (args : Namespace) (w : world) (m : dict)
        (text content : string) :
  read_file w (conversion_table args) = Some text ->
  load_mapping (refseq_to_genbank args) text = Some (Ok m) ->
  writable w (output_gff3 args) = true ->
  open_input w args = Some content ->
  (forall row, In row (file_lines content) ->
     startswith row "#" = false /\ get m (Str (field0 row)) = None) ->
  main_block args w =
    Some (mkResult 0 (Some (universal_newlines content))
            (map (fun row => RowUnparseable (split TAB row)) (file_lines content))
            []).
Proof.
  intros R L W I H. unfold main_block. rewrite R, L, W, I. simpl negb. cbv iota.
  rewrite (loop_unmapped m _ init H). simpl.
  unfold file_lines at 1. rewrite concat_keepends, map_map. reflexivity.
Qed.

Lemma unmapped_input_copied_witness :
  main_block (args_of true) (files table (unknown_row ++ unknown_row)%string) =
    Some (mkResult 0 (Some (universal_newlines (unknown_row ++ unknown_row)%string))
            (map (fun row => RowUnparseable (split TAB row))
                 (file_lines (unknown_row ++ unknown_row)%string))
            []).
Proof.
  refine (unmapped_input_copied (args_of true)
            (files table (unknown_row ++ unknown_row)%string) mapping table
            (unknown_row ++ unknown_row)%string eq_refl eq_refl eq_refl eq_refl _).
  intros row [<-|[<-|[]]]; split; reflexivity.
Defined.

End MoreLoopFacts.

Section MoreLoaderFacts.
Import Py Dict Pandas Argparse Script Samples.

Lemma uncomment_no_hash (s : string) : has_char HASH (uncomment s) = false.
Proof.
  induction s as [|c rest IH]; simpl; [reflexivity|].
  destruct (Ascii.eqb c HASH) eqn:E; simpl; [reflexivity|].
  now rewrite E.
Qed.

Lemma records_no_hash (lines : list string) :
  Forall (Forall (fun f => has_char HASH f = false)) (records lines).
Proof.
  induction lines as [|l rest IH]; simpl; [constructor|].
  unfold record_of. destruct (startswith (chomp l) "#" || blank (chomp l));
    [exact IH|].
  constructor; [|exact IH].
  apply split_fields_no_char, uncomment_no_hash.
Qed.

Lemma data_field_no_hash (text : string) (hdr r : list string)
      (data : list (list string)) (i : nat) :
  tokenize text = hdr :: data -> In r data ->
  has_char HASH (nth i r "") = false.
Proof.
  intros T Hr. pose proof (records_no_hash (file_lines text)) as H.
  unfold tokenize in T. rewrite T in H. inversion H as [|? ? _ Hd]; subst.
  rewrite Forall_forall in Hd. specialize (Hd r Hr).
  destruct (nth_in_or_default i r "") as [Hin| ->]; [|reflexivity].
  rewrite Forall_forall in Hd. now apply Hd.
Qed.

(** No key of a loaded mapping holds the comment character. *)
Lemma loaded_key_no_hash (flag : bool) (text : string) (m : dict) (s : string) :
  load_mapping flag text = Some (Ok m) ->
  In (Str s) (keys m) -> has_char HASH s = false.
Proof.
  intros L Hin.
  destruct (loaded_key_from_data _ _ _ _ L Hin) as (hdr & data & r & T & Hr & E).
  symmetry in E. apply to_cell_Str in E. subst s.
  eapply data_field_no_hash; eauto.
Qed.

(** A [str] value of a loaded mapping is not empty and holds no comment
    character. *)
Lemma loaded_value_shape (flag : bool) (text : string) (m : dict) (s : string) :
  load_mapping flag text = Some (Ok m) ->
  In (Str s) (values m) -> s <> "" /\ has_char HASH s = false.
Proof.
  intros L Hin.
  destruct (loaded_value_from_data _ _ _ _ L Hin) as (hdr & data & r & T & Hr & E).
  symmetry in E. split.
  - intros ->. unfold to_cell in E.
    destruct (is_na (nth (value_column flag) r "")) eqn:N; [discriminate|].
    injection E as E. rewrite E in N. discriminate.
  - apply to_cell_Str in E. subst s. eapply data_field_no_hash; eauto.
Qed.

Lemma comment_field0_has_hash (row : string) :
  startswith row "#" = true -> has_char HASH (field0 row) = true.
Proof.
  unfold field0. destruct row as [|c rest]; simpl; [discriminate|].
  intro E. apply andb_prop in E. destruct E as [E _].
  apply Ascii.eqb_eq in E. subst c.
  change (Ascii.eqb "#" TAB) with false. cbv iota.
  destruct (split TAB rest); reflexivity.
Qed.

Lemma startswith_hash_app (s t : string) :
  s <> "" -> startswith (s ++ t) "#" = startswith s "#".
Proof.
  destruct s as [|c s]; [congruence|]. intros _. simpl.
  assert (E : forall x, startswith x "" = true) by (now intros []).
  now rewrite !E.
Qed.

Lemma startswith_hash_has_char (s : string) :
  startswith s "#" = true -> has_char HASH s = true.
Proof.
  destruct s as [|c rest]; simpl; [discriminate|].
  intro E. apply andb_prop in E. destruct E as [E _].
  apply Ascii.eqb_eq in E. subst c. reflexivity.
Qed.

Lemma join_head (v : string) (fs : list string) :
  exists t, join tab (v :: fs) = (v ++ t)%string.
Proof.
  destruct fs as [|g gs].
  - exists "". simpl. now rewrite append_empty.
  - exists (tab ++ String.concat tab (g :: gs))%string. reflexivity.
Qed.

End MoreLoaderFacts.

Section FurtherProperties.
Import Py Dict Pandas Argparse Script Samples.

(** With a loaded mapping a [##gff] row is never a key (no key holds the
    comment character), so every such row is written twice and reported. *)
Theorem directive_always_duplicated (flag : bool) (text : string) (m : dict)
        (st : state) (row : string) :
  load_mapping flag text = Some (Ok m) ->
  startswith row "##gff" = true ->
  iteration m st row =
    (mkState (written st ++ [row; row]) (printed st ++ [split TAB row]), None).
Proof.
  intros L D. unfold iteration. rewrite D.
  assert (G : get m (Str (field0 row)) = None).
  { destruct (get_None_or_key m (Str (field0 row))) as [G|K]; [exact G|].
    apply (loaded_key_no_hash _ _ _ _ L) in K.
    rewrite comment_field0_has_hash in K by now apply directive_is_comment.
    discriminate. }
  rewrite substitute_unmapped by exact G.
  simpl. now rewrite <- app_assoc.
Qed.

Lemma directive_always_duplicated_witness :
  iteration mapping init directive =
    (mkState [directive; directive] [[directive]], None).
Proof.
  exact (directive_always_duplicated true table mapping init directive
           eq_refl eq_refl).
Defined.

(** Remapping a row and remapping the result with a mapping that sends the
    new accession back gives the row again. *)
Theorem remap_round_trip (flag : bool) (text : string) (forward backward : dict)
        (row b : string) :
  load_mapping flag text = Some (Ok forward) ->
  startswith row "#" = false ->
  get forward (Str (field0 row)) = Some (Str b) ->
  get backward (Str b) = Some (Str (field0 row)) ->
  exists out,
    iteration forward init row = (mkState [out] [], None) /\
    iteration backward init out = (mkState [row] [], None).
Proof.
  intros L H F B. exists (join tab (b :: tl (split TAB row))). split.
  - rewrite iteration_data by exact H.
    now rewrite (substitute_mapped _ _ _ b F).
  - pose proof (get_in_keys _ _ _ F) as [_ Hv].
    destruct (loaded_value_clean _ _ _ _ L Hv) as [Ht _].
    destruct (loaded_value_shape _ _ _ _ L Hv) as [Hne Hh].
    assert (S : split TAB (join tab (b :: tl (split TAB row)))
                = b :: tl (split TAB row)).
    { apply split_join. constructor; [exact Ht|].
      pose proof (split_fields_no_sep TAB row) as Hs.
      rewrite row_shape in Hs. now inversion Hs. }
    assert (C : startswith (join tab (b :: tl (split TAB row))) "#" = false).
    { destruct (join_head b (tl (split TAB row))) as [t ->].
      rewrite startswith_hash_app by exact Hne.
      destruct (startswith b "#") eqn:E; [|reflexivity].
      apply startswith_hash_has_char in E. congruence. }
    rewrite iteration_data by exact C.
    rewrite (substitute_mapped _ _ _ (field0 row)).
    + rewrite S. simpl tl. rewrite <- row_shape. unfold write. simpl.
      now rewrite join_split.
    + unfold field0 at 1. rewrite S. exact B.
Qed.

Lemma remap_round_trip_witness :
  exists out,
    iteration mapping init (line ["NC_000002.12"; "."; "gene"]) =
      (mkState [out] [], None) /\
    iteration [(Str "CM999999.9", Str "NC_000002.12")] init out =
      (mkState [line ["NC_000002.12"; "."; "gene"]] [], None).
Proof.
  exact (remap_round_trip true table mapping
           [(Str "CM999999.9", Str "NC_000002.12")]
           (line ["NC_000002.12"; "."; "gene"]) "CM999999.9"
           eq_refl eq_refl eq_refl eq_refl).
Defined.



(** When the input and the output are one path, opening the output first
    empties it: the loop sees no row, the file ends up empty and the status
    is 0. *)
Theorem same_path_empties_file (args : Namespace) (w : world) (m : dict)
        (text : string) :
  read_file w (conversion_table args) = Some text ->
  load_mapping (refseq_to_genbank args) text = Some (Ok m) ->
  writable w (output_gff3 args) = true ->
  input_gff3 args = output_gff3 args ->
  main_block args w = Some (mkResult 0 (Some "") [] []).
Proof.
  intros R L W E. unfold main_block, open_input.
  rewrite R, L, W, E, String.eqb_refl. reflexivity.
Qed.

Lemma same_path_empties_file_witness :
  main_block (mkNamespace "out.gff3" "table.tsv" "out.gff3" true)
             (files table unknown_row) =
    Some (mkResult 0 (Some "") [] []).
Proof.
  exact (same_path_empties_file
           (mkNamespace "out.gff3" "table.tsv" "out.gff3" true)
           (files table unknown_row) mapping table
           eq_refl eq_refl eq_refl eq_refl).
Defined.

(** An input that does not open is found out after the output was opened:
    the run ends with status 1 and leaves the output file empty. *)
Theorem unreadable_input_empties_output (args : Namespace) (w : world)
        (m : dict) (text : string) :
  read_file w (conversion_table args) = Some text ->
  load_mapping (refseq_to_genbank args) text = Some (Ok m) ->
  writable w (output_gff3 args) = true ->
  input_gff3 args <> output_gff3 args ->
  read_file w (input_gff3 args) = None ->
  main_block args w =
    Some (mkResult 1 (Some "") [] [Traceback (OSError (input_gff3 args))]).
Proof.
  intros R L W N I. unfold main_block, open_input.
  apply String.eqb_neq in N. rewrite R, L, W, N, I. reflexivity.
Qed.

Lemma unreadable_input_empties_output_witness :
  main_block (mkNamespace "missing.gff3" "table.tsv" "out.gff3" true)
             (files table unknown_row) =
    Some (mkResult 1 (Some "") [] [Traceback (OSError "missing.gff3")]).
Proof.
  refine (unreadable_input_empties_output
            (mkNamespace "missing.gff3" "table.tsv" "out.gff3" true)
            (files table unknown_row) mapping table
            eq_refl eq_refl eq_refl _ eq_refl).
  discriminate.
Defined.

(** A table that does not have ten columns stops the run at the
    relabelling, in either direction: ValueError, status 1, and the output
    file is not opened. *)
Theorem wrong_column_count_is_ValueError (args : Namespace) (w : world)
        (text : string) (df : DataFrame) :
  read_file w (conversion_table args) = Some text ->
  read_csv text = Some (Ok df) ->
  List.length (columns df) <> 10 ->
  main_block args w = Some (mkResult 1 None [] [Traceback ValueError]).
Proof.
  intros R C N. unfold main_block, load_mapping. rewrite R, C. simpl.
  unfold build_mapping, set_columns.
  destruct (Nat.eqb (List.length header) (List.length (columns df))) eqn:E.
  - apply Nat.eqb_eq in E. simpl in E. congruence.
  - reflexivity.
Qed.

Lemma wrong_column_count_is_ValueError_witness :
  main_block (args_of true) (files narrow_table unknown_row) =
    Some (mkResult 1 None [] [Traceback ValueError]).
Proof.
  refine (wrong_column_count_is_ValueError (args_of true)
            (files narrow_table unknown_row) narrow_table
            (mkDataFrame ["GenBank-Accn"; "RefSeq-Accn"]
               [[Str "CM000663.2"; Str "NC_000001.11"]])
            eq_refl eq_refl _).
  discriminate.
Defined.


Lemma double_dash_dashed (word p : string) :
  startswith word (String "-" (String "-" p)) = true -> dashed word = true.
Proof.
  intro E. destruct word as [|c w]; [discriminate E|].
  simpl in E. apply andb_prop in E. destruct E as [E1 E2].
  apply Ascii.eqb_eq in E1. subst c.
  destruct w as [|d w]; [discriminate E2|].
  reflexivity.
Qed.

Lemma not_dashed_plain (word : string) :
  dashed word = false ->
  String.eqb word option_name = false /\
  startswith word (option_name ++ "=") = false /\
  String.eqb word "-h" || String.eqb word "--help" = false.
Proof.
  intro D. repeat split.
  - destruct (String.eqb word option_name) eqn:E; [|reflexivity].
    apply String.eqb_eq in E. subst. discriminate.
  - destruct (startswith word (option_name ++ "=")) eqn:E; [|reflexivity].
    apply (double_dash_dashed word "refseq-to-genbank=") in E. congruence.
  - destruct (String.eqb word "-h") eqn:E1.
    + apply String.eqb_eq in E1. subst. discriminate.
    + destruct (String.eqb word "--help") eqn:E2; [|reflexivity].
      apply String.eqb_eq in E2. subst. discriminate.
Qed.

Lemma scan_plain (argv pos : list string) (flag : bool) :
  Forall (fun word => dashed word = false) argv ->
  scan argv pos flag = Some (Ok (pos ++ argv, flag)).
Proof.
  intro H. revert pos. induction H as [|word rest D _ IH]; intro pos.
  - simpl. now rewrite app_nil_r.
  - destruct (not_dashed_plain word D) as (E1 & E2 & E3).
    cbn [scan]. rewrite E1, E2, E3, D, IH, <- app_assoc. reflexivity.
Qed.

(** Command-line words that do not start with a dash are the positional
    arguments: three of them give the namespace with the direction at its
    default [True], any other number ends the run with status 2. *)
Theorem parse_args_plain_words (argv : list string) :
  Forall (fun word => dashed word = false) argv ->
  parse_args argv =
    match argv with
    | [i; t; o] => Some (Ok (mkNamespace i t o true))
    | _ => Some (Raise (SystemExit 2))
    end.
Proof.
  intro H. unfold parse_args. rewrite scan_plain by exact H. simpl.
  destruct argv as [|a [|b [|c [|d l]]]]; reflexivity.
Qed.

Lemma parse_args_plain_words_witness :
  parse_args ["in.gff3"; "table.tsv"] = Some (Raise (SystemExit 2)).
Proof.
  refine (parse_args_plain_words ["in.gff3"; "table.tsv"] _).
  repeat constructor.
Defined.

Lemma hexdigit_not_LF (n : nat) : Ascii.eqb (Repr.hexdigit n) LF = false.
Proof.
  unfold Repr.hexdigit.
  destruct (nth_in_or_default n Repr.hexdigits "0"%char) as [H| ->];
    [|reflexivity].
  remember (nth n Repr.hexdigits "0"%char) as x eqn:Ex. clear Ex.
  simpl in H. repeat (destruct H as [<-|H]; [reflexivity|]). contradiction.
Qed.

Lemma escape_no_LF (quote c : ascii) :
  Ascii.eqb quote LF = false -> has_char LF (Repr.escape quote c) = false.
Proof.
  intro Q. unfold Repr.escape.
  destruct (Ascii.eqb c quote || Ascii.eqb c Repr.BACKSLASH) eqn:E1.
  - apply orb_prop in E1. destruct E1 as [E|E]; apply Ascii.eqb_eq in E; subst c.
    + simpl. now rewrite Q.
    + reflexivity.
  - destruct (Ascii.eqb c TAB); [reflexivity|].
    destruct (Ascii.eqb c LF) eqn:E2; [reflexivity|].
    destruct (Ascii.eqb c CR); [reflexivity|].
    destruct (Nat.ltb (nat_of_ascii c) 32 || Nat.eqb (nat_of_ascii c) 127).
    + simpl. now rewrite !hexdigit_not_LF.
    + simpl. now rewrite E2.
Qed.

Lemma escape_all_no_LF (quote : ascii) (s : string) :
  Ascii.eqb quote LF = false -> has_char LF (Repr.escape_all quote s) = false.
Proof.
  intro Q. induction s as [|c rest IH]; simpl; [reflexivity|].
  now rewrite has_char_app, escape_no_LF, IH.
Qed.

Lemma repr_str_no_LF (s : string) : has_char LF (Repr.repr_str s) = false.
Proof.
  assert (Q : Ascii.eqb (Repr.quote_of s) LF = false)
    by (unfold Repr.quote_of; now destruct (_ && _)).
  unfold Repr.repr_str. simpl. rewrite Q, has_char_app, escape_all_no_LF by exact Q.
  simpl. now rewrite Q.
Qed.

Lemma concat_reprs_no_LF (row : list string) :
  has_char LF (String.concat ", " (map Repr.repr_str row)) = false.
Proof.
  induction row as [|s [|t rest] IH].
  - reflexivity.
  - simpl. apply repr_str_no_LF.
  - change (map Repr.repr_str (s :: t :: rest))
      with (Repr.repr_str s :: map Repr.repr_str (t :: rest)).
    change (map Repr.repr_str (t :: rest))
      with (Repr.repr_str t :: map Repr.repr_str rest) in *.
    rewrite concat_cons, !has_char_app, repr_str_no_LF, IH. reflexivity.
Qed.

(** The text printed for a row holds no line feed, although the last field
    of the row still ends with one: each reported row is one line of
    standard output. *)
Theorem report_is_one_line (row : list string) :
  has_char LF (Repr.report row) = false.
Proof.
  unfold Repr.report, Repr.repr_list.
  rewrite !has_char_app, concat_reprs_no_LF. reflexivity.
Qed.

End FurtherProperties.
